(** * The cart page of the storefront (src/frontend/src/app/cart/page.tsx)

    A shallow embedding of the [Cart] component's handlers: the cart loader
    run on mount, [calculateTotal], [updateLocalStorage],
    [handleRemoveFromCart], [handleQuantityChange], [handleClick] (direct
    order) and [handleCheckout] (hosted payment session), and of the clicks
    on the quantity buttons and on the checkout button.

    Modelling choices.
    - A JavaScript [number] is a rational ([Q]): NaN and the infinities are
      outside the model. The runtime adds and multiplies doubles, which round,
      so nothing here rests on a law of exact arithmetic for the total: what
      is stated of a total is stated of the additions the page performs, in
      the order it performs them (see [reduce_is_sum], which holds for any
      addition and multiplication, those of doubles among them).
    - The component's React state ([cart], [total]), the browser's
      [localStorage] and everything a handler does to the outside (dialogs,
      navigation, console, network) are one record, [Page]; a handler is a
      function on it. What the outside answers (whether [createrOrder]
      resolves, what [fetch] returns) is an argument of the handler, and a
      handler runs from its first line to its last without another handler
      in between.
    - [JSON.parse] and [JSON.stringify] belong to the runtime: they are
      the variables of section [Handlers]. *)

From Stdlib Require Import QArith Qminmax Lqa Floats.
From stdpp Require Import gmap strings list.

Local Open Scope string_scope.
Local Open Scope list_scope.
Local Open Scope Q_scope.

(** ** Values *)

(** The primitive values a field of a stored item can hold. *)
Inductive jsprim : Type :=
| JUndefined
| JNull
| JBool (b : bool)
| JNum (n : Q)
| JStr (s : string).

(** [IProduct] (imported from [@/interface]), with the fields the page reads.
    [productId] and [quantity] may be missing (the page guards both with a
    truthiness test), and [price] is tested with [typeof] before use. *)
Record IProduct : Type := mkProduct {
  productId : option string;
  name : string;
  imgUrl : string;
  price : jsprim;
  quantity : option Q;
  stock : Q
}.

(** What [JSON.parse] can return, as the handlers look at it: a primitive, an
    array (its elements taken to have the shape the annotation [IProduct[]]
    declares) or another object, given by its properties, each key once. *)
Inductive jsval : Type :=
| VPrim (p : jsprim)
| VArray (items : list IProduct)
| VObject (fields : list (string * jsprim)).

(** JavaScript's ToBoolean. *)
Definition truthy_prim (p : jsprim) : bool :=
  match p with
  | JUndefined | JNull => false
  | JBool b => b
  | JNum n => negb (Qeq_bool n 0)
  | JStr EmptyString => false
  | JStr _ => true
  end.

Definition truthy (v : jsval) : bool :=
  match v with
  | VPrim p => truthy_prim p
  | VArray _ | VObject _ => true
  end.

(** [v.length === 0]. *)
Definition length_is_zero (v : jsval) : bool :=
  match v with
  | VPrim (JStr EmptyString) => true
  | VPrim _ => false
  | VArray items => match items with [] => true | _ => false end
  | VObject fields =>
      match List.find (fun kv => String.eqb (fst kv) "length") fields with
      | Some (_, JNum n) => Qeq_bool n 0
      | _ => false
      end
  end.

(** [a > b] on numbers. *)
Definition gt (a b : Q) : bool := negb (Qle_bool a b).

(** [Math.max]. *)
Definition Math_max (a b : Q) : Q := Qmax a b.

(** [item.quantity || 1]. *)
Definition quantity_or_1 (item : IProduct) : Q :=
  match quantity item with
  | Some q => if Qeq_bool q 0 then 1 else q
  | None => 1
  end.

(** [typeof item.price === 'number' ? item.price : 0]. *)
Definition price_or_0 (item : IProduct) : Q :=
  match price item with
  | JNum p => p
  | _ => 0
  end.

(** ** The page: state, storage and effects *)

Inductive icon : Type := warning | error | success.

(** An entry of the order sent to [createrOrder]. *)
Record OrderItem : Type := mkOrderItem {
  order_productId : option string;
  order_quantity : Q
}.

(** An entry of the body posted to [/api/checkout_sessions]. *)
Record CheckoutItem : Type := mkCheckoutItem {
  co_productId : option string;
  co_name : string;
  co_imgUrl : string;
  co_price : jsprim;
  co_quantity : Q
}.

(** What a handler does to the outside, in the order it does it.
    [ConsoleError] carries the message, the first argument of
    [console.error]. *)
Inductive effect : Type :=
| SwalFire (i : icon) (title text confirmButtonText : string)
| RouterPush (href : string)
| ConsoleError (message : string)
| CreaterOrder (orderItems : list OrderItem) (userId : string)
| Fetch (input method : string) (cartItems : list CheckoutItem)
| LocationHref (url : option string).

Record Page : Type := mkPage {
  cart : list IProduct;
  total : Q;
  localStorage : gmap string string;
  effects : list effect
}.

Definition setCart (c : list IProduct) (w : Page) : Page :=
  mkPage c (total w) (localStorage w) (effects w).

Definition setTotal (t : Q) (w : Page) : Page :=
  mkPage (cart w) t (localStorage w) (effects w).

Definition setItem (key value : string) (w : Page) : Page :=
  mkPage (cart w) (total w) (<[key := value]> (localStorage w)) (effects w).

Definition emit (es : list effect) (w : Page) : Page :=
  mkPage (cart w) (total w) (localStorage w) (effects w ++ es).

(** [localStorage.getItem(key) || dflt]: an absent key gives [null] and an
    empty string is falsy, so both give [dflt]. *)
Definition getItem_or (st : gmap string string) (key dflt : string) : string :=
  match st !! key with
  | Some EmptyString | None => dflt
  | Some s => s
  end.

(** The page as [useState] initialises it, over a given storage. *)
Definition initial (st : gmap string string) : Page := mkPage [] 0 st [].

(** The authenticated user of [useUser()], with its [sub] identifier. *)
Record UserProfile : Type := mkUser { sub : option string }.

(** [!userId]. *)
Definition userId_of (u : UserProfile) : option string :=
  match sub u with
  | Some EmptyString | None => None
  | Some s => Some s
  end.

(** The parsed body of a response ([data.url], [data.error]). *)
Record ResponseData : Type := mkData {
  url : option string;
  data_error : option string
}.

(** What [response.json()] gives: it rejects, or the body is [null] (reading
    a property of it throws), or a value with properties to read. *)
Inductive body : Type :=
| Unparsable
| NullBody
| Body (data : ResponseData).

(** What [fetch] gives: the request rejects, or a response arrives with its
    [ok] flag and its body. *)
Inductive fetched : Type :=
| NetworkError
| Response (ok : bool) (b : body).

Inductive jsError : Type := SyntaxError | TypeError.

(** A call returns or throws. *)
Inductive outcome (A : Type) : Type :=
| Returned (a : A)
| Threw (e : jsError).
Arguments Returned {A} a.
Arguments Threw {A} e.

(** ** Pure parts of the handlers *)

(** The [reduce] of [calculateTotal]. *)
Definition totalCart (cartItems : list IProduct) : Q :=
  fold_left (fun acc item => acc + price_or_0 item * quantity_or_1 item)
            cartItems 0.

(** The callback of [prevCart.map] in [handleQuantityChange]: the item it
    returns and the dialogs it fires. *)
Definition changeItem (pid : string) (delta : Q) (item : IProduct)
  : IProduct * list effect :=
  if bool_decide (productId item = Some pid) then
    let newQuantity := quantity_or_1 item + delta in
    if gt newQuantity (stock item) then
      (item,
       [SwalFire warning "Stock insuficiente"
                 "No hay más unidades disponibles." "Aceptar"])
    else
      (mkProduct (productId item) (name item) (imgUrl item) (price item)
                 (Some (Math_max newQuantity 1)) (stock item),
       [])
  else (item, []).

(** The [orderItems] of [handleClick]. *)
Definition orderItems_of (c : list IProduct) : list OrderItem :=
  List.map (fun product => mkOrderItem (productId product) (quantity_or_1 product)) c.

(** The [cartItems] of the body posted by [handleCheckout]. *)
Definition checkoutItems_of (c : list IProduct) : list CheckoutItem :=
  List.map (fun item => mkCheckoutItem (productId item) (name item) (imgUrl item)
                                  (price item) (quantity_or_1 item)) c.

(** ** The handlers *)

Section Handlers.

(** The runtime's [JSON.parse] ([None]: it throws a [SyntaxError]) and
    [JSON.stringify]. *)
Variable JSON_parse : string -> option jsval.
Variable JSON_stringify : jsval -> string.

(** [calculateTotal]. *)
Definition calculateTotal (cartItems : list IProduct) (w : Page) : Page :=
  setTotal (totalCart cartItems) w.

(** [updateLocalStorage]. *)
Definition updateLocalStorage (updatedCart : list IProduct) (w : Page) : Page :=
  setItem "cart" (JSON_stringify (VArray updatedCart)) w.

(** The effect run on mount ([useEffect], lines 18-26), in a browser, where
    [window.localStorage] exists. Nothing in it catches what
    [JSON.parse] or [reduce] throws. *)
Definition load (w : Page) : outcome Page :=
  match JSON_parse (getItem_or (localStorage w) "cart" "[]") with
  | None => Threw SyntaxError
  | Some storedCart =>
      if truthy storedCart then
        match storedCart with
        | VArray items => Returned (calculateTotal items (setCart items w))
        | _ => Threw TypeError
        end
      else Returned w
  end.

(** [handleRemoveFromCart]. *)
Definition handleRemoveFromCart (pid : string) (w : Page) : Page :=
  let updatedCart :=
    List.filter (fun product => negb (bool_decide (productId product = Some pid)))
                (cart w) in
  updateLocalStorage updatedCart
    (calculateTotal updatedCart (setCart updatedCart w)).

(** [handleQuantityChange]: the updater given to [setCart], run on the
    current cart. *)
Definition handleQuantityChange (pid : string) (delta : Q) (w : Page) : Page :=
  let changed := List.map (changeItem pid delta) (cart w) in
  let updatedCart := List.map fst changed in
  setCart updatedCart
    (updateLocalStorage updatedCart
       (calculateTotal updatedCart
          (emit (concat (List.map snd changed)) w))).

(** [handleClick]: [user] is what [useUser()] gave and [resolves] tells
    whether [createrOrder] resolved or rejected. *)
Definition handleClick (user : option UserProfile) (resolves : bool)
                       (w : Page) : Page :=
  match user with
  | None => emit [RouterPush "/api/auth/login"] w
  | Some u =>
      match userId_of u with
      | None =>
          emit [SwalFire error "Error"
                  "No se pudo obtener el ID del usuario. Intente nuevamente."
                  "Ok"] w
      | Some userId =>
          let w1 := emit [CreaterOrder (orderItems_of (cart w)) userId] w in
          if resolves then
            emit [SwalFire success "Compra realizada con éxito"
                    "Tu pedido ha sido procesado correctamente." "Aceptar";
                  RouterPush "/home"]
              (updateLocalStorage [] (setTotal 0 (setCart [] w1)))
          else
            emit [ConsoleError "Error creando la orden:";
                  SwalFire error "Error"
                    "Ocurrió un error al procesar tu pedido. Intenta nuevamente más tarde."
                    "Ok"] w1
      end
  end.

(** [handleCheckout]: [reply] is what the network answers if the request
    is sent. Every throw ends in the [catch] of line 156. *)
Definition handleCheckout (reply : fetched) (w : Page) : Page :=
  match JSON_parse (getItem_or (localStorage w) "cart" "[]") with
  | None => emit [ConsoleError "Error:"] w
  | Some cartItems =>
      if negb (truthy cartItems) || length_is_zero cartItems then
        emit [ConsoleError "El carrito está vacío."] w
      else
        match cartItems with
        | VArray items =>
            let w1 := emit [Fetch "/api/checkout_sessions" "POST"
                              (checkoutItems_of items)] w in
            match reply with
            | NetworkError => emit [ConsoleError "Error:"] w1
            | Response _ Unparsable => emit [ConsoleError "Error:"] w1
            | Response true NullBody =>
                emit [ConsoleError "Error:"]
                  (setItem "checkoutItems" (JSON_stringify cartItems) w1)
            | Response true (Body data) =>
                emit [LocationHref (url data)]
                  (setItem "checkoutItems" (JSON_stringify cartItems) w1)
            | Response false NullBody => emit [ConsoleError "Error:"] w1
            | Response false (Body data) =>
                emit [ConsoleError "Error creando la sesión de checkout:"] w1
            end
        | _ => emit [ConsoleError "Error:"] w
        end
  end.

(** ** The states the page goes through *)

(** One event of the page. *)
Inductive action : Type :=
| Remove (pid : string)
| SetQuantity (pid : string) (delta : Q)
| SubmitOrder (user : option UserProfile) (resolves : bool)
| Checkout (reply : fetched).

Definition run (a : action) (w : Page) : Page :=
  match a with
  | Remove pid => handleRemoveFromCart pid w
  | SetQuantity pid delta => handleQuantityChange pid delta w
  | SubmitOrder user resolves => handleClick user resolves w
  | Checkout reply => handleCheckout reply w
  end.

(** The states reached from a fresh page: the loader runs once on mount,
    then the handlers run as events arrive. *)
Inductive reachable : Page -> Prop :=
| reach_mount st w :
    load (initial st) = Returned w -> reachable w
| reach_step a w :
    reachable w -> reachable (run a w).

(** The total shown is the one [calculateTotal] computes from the cart. *)
Definition total_in_sync (w : Page) : Prop := total w = totalCart (cart w).

End Handlers.

(** ** Notions the statements use *)

(** What a handler added to the effects of [w] on the way to [w']. *)
Definition since (w w' : Page) : list effect :=
  drop (List.length (effects w)) (effects w').

(** The dialog of a refused quantity change. *)
Definition stock_warning : effect :=
  SwalFire warning "Stock insuficiente" "No hay más unidades disponibles."
           "Aceptar".

(** A line item of the data model with price [p] and quantity [q]: the price
    is a number and the quantity is there and is not zero. *)
Definition line_item (item : IProduct) (p q : Q) : Prop :=
  price item = JNum p /\ quantity item = Some q /\ ~ q == 0.



(** The callback of the [reduce] of [calculateTotal]: what one item adds to
    the running total. *)
Definition add_item (acc : Q) (item : IProduct) : Q :=
  acc + price_or_0 item * quantity_or_1 item.

(** The sum of price × quantity over a sequence of lines (price, quantity),
    in the words of the specification and for any numbers, with their
    addition and multiplication: the sum of no line is zero, and the sum of
    some lines and one more is the sum of the former plus the price × the
    quantity of the latter. Nothing is assumed of the operations, so the
    order of the additions is part of the definition. *)
Section Sums.

Context {number : Type}.
Variables (plus times : number -> number -> number) (zero : number).

(** The lines are given last first. *)
Fixpoint sum_last_first (reversed : list (number * number)) : number :=
  match reversed with
  | [] => zero
  | (p, q) :: earlier => plus (sum_last_first earlier) (times p q)
  end.

Definition sum_of_products (lines : list (number * number)) : number :=
  sum_last_first (rev lines).

(** A [reduce] that adds price × quantity to an accumulator, from [zero]. *)
Definition reduce_products (lines : list (number * number)) : number :=
  fold_left (fun acc line => plus acc (times (fst line) (snd line)))
            lines zero.

End Sums.

(** The price and the quantity of an item as the page reads them. *)
Definition line_of (item : IProduct) : Q * Q :=
  (price_or_0 item, quantity_or_1 item).


(** The persisted cart is absent, or is the text of the empty array. *)
Definition persisted_cart_empty (parse : string -> option jsval)
    (st : gmap string string) : Prop :=
  st !! "cart" = None \/
  exists s, st !! "cart" = Some s /\ parse s = Some (VArray []).

(** The request did not end in a success response. *)
Definition request_failed (reply : fetched) : Prop :=
  match reply with
  | Response true _ => False
  | _ => True
  end.

(** The bound of the data model on an item: its quantity is there, at least
    1 and at most the stock. *)
Definition in_bounds (item : IProduct) : Prop :=
  exists q, quantity item = Some q /\ 1 <= q /\ q <= stock item.

(** The identifiers of a cart, in order. *)
Definition ids_of (c : list IProduct) : list (option string) :=
  List.map productId c.

(** The total and the stored cart follow the in-memory cart: the total is
    the one computed from it and the storage holds its serialisation. *)
Definition mirrors (stringify : jsval -> string) (w : Page) : Prop :=
  total w = totalCart (cart w) /\
  localStorage w !! "cart" = Some (stringify (VArray (cart w))).

(** ** The buttons of a row (lines 182-204) and of the page (lines 230-238) *)


(** [disabled={cart.length === 0}] of the checkout button. *)
Definition checkout_disabled (w : Page) : bool :=
  match cart w with
  | [] => true
  | _ => false
  end.

(** [if (product.productId)]: the identifier, when it is there and is not
    the empty string. *)
Definition clickable_id (product : IProduct) : option string :=
  match productId product with
  | Some EmptyString | None => None
  | Some pid => Some pid
  end.

Section Buttons.

Variable JSON_parse : string -> option jsval.
Variable JSON_stringify : jsval -> string.


(** A click on the plus button of a row. *)
Definition clickPlus (product : IProduct) (w : Page) : Page :=
  match clickable_id product with
  | Some pid => handleQuantityChange JSON_stringify pid 1 w
  | None => w
  end.

(** A click on the checkout button. *)
Definition clickCheckout (reply : fetched) (w : Page) : Page :=
  if checkout_disabled w then w
  else handleCheckout JSON_parse JSON_stringify reply w.

End Buttons.

(** ** Sample data *)

Module Sample.

(** A runtime for the examples: it knows the JSON text of the empty array
    and takes [text] for the JSON text of [v]; any other text is
    malformed. *)
Definition parse (text : string) (v : jsval) (s : string) : option jsval :=
  if String.eqb s "[]" then Some (VArray [])
  else if String.eqb s text then Some v
  else None.

Definition stringify (text : string) (v : jsval) : string :=
  match v with
  | VArray [] => "[]"
  | _ => text
  end.

Definition item (id : string) (p : Q) (q : option Q) (s : Q) : IProduct :=
  mkProduct (Some id) id "/img.png" (JNum p) q s.

(** The carts of the specification's scenarios. *)
Definition single : list IProduct := [item "A" 10 (Some 1) 1].
Definition pair : list IProduct :=
  [item "A" 5 (Some 2) 5; item "B" 3 (Some 1) 2].

(** An item stored without a quantity and one with a textual price. *)
Definition loose : list IProduct :=
  [item "A" 5 None 5;
   mkProduct (Some "B") "B" "/img.png" (JStr "3") (Some 2) 2].

Definition page_of (c : list IProduct) : Page :=
  mkPage c (totalCart c) {[ "cart" := "<cart>" ]} [].

Definition user : UserProfile := mkUser (Some "auth0|1").

(** A page over the cart [c] whose storage holds the text the sample
    runtime writes for it. *)
Definition mirrored (c : list IProduct) : Page :=
  mkPage c (totalCart c)
         {[ "cart" := stringify "<cart>" (VArray c) ]} [].

End Sample.

(** * Properties *)

(** ** Numbers and coercions *)

Lemma gt_true (a b : Q) : gt a b = true <-> b < a.
Proof.
  unfold gt. rewrite negb_true_iff.
  split; intros H.
  - apply Qnot_le_lt. intros Hle. apply Qle_bool_iff in Hle. congruence.
  - destruct (Qle_bool a b) eqn:E; [|reflexivity].
    apply Qle_bool_iff in E. apply Qlt_not_le in H. contradiction.
Qed.

Lemma gt_false (a b : Q) : gt a b = false <-> a <= b.
Proof.
  unfold gt. rewrite negb_false_iff. apply Qle_bool_iff.
Qed.

Lemma quantity_or_1_line (item : IProduct) (q : Q) :
  quantity item = Some q -> ~ q == 0 -> quantity_or_1 item = q.
Proof.
  intros Hq Hnz. unfold quantity_or_1. rewrite Hq.
  destruct (Qeq_bool q 0) eqn:E; [|reflexivity].
  apply Qeq_bool_iff in E. contradiction.
Qed.


Lemma price_or_0_number (item : IProduct) (p : Q) :
  price item = JNum p -> price_or_0 item = p.
Proof. intros H. unfold price_or_0. now rewrite H. Qed.


(** ** The total *)

(** The [reduce] is the sum of the specification, whatever the numbers and
    their operations: no law of arithmetic is used. *)
Lemma reduce_is_sum {number : Type}
      (plus times : number -> number -> number) (zero : number)
      (lines : list (number * number)) :
  reduce_products plus times zero lines = sum_of_products plus times zero lines.
Proof.
  unfold reduce_products, sum_of_products.
  induction lines as [|[p q] lines IH] using rev_ind; [reflexivity|].
  rewrite fold_left_app, rev_app_distr. simpl. now rewrite IH.
Qed.

(** On doubles the additions round, and the sum is the one the runtime
    computes from left to right: for the doubles nearest to 19.99, 9.99 and
    24.5 it is 54.479999999999997 (adding the last two first would give
    54.480000000000004). *)
Example sum_of_doubles :
  sum_of_products PrimFloat.add PrimFloat.mul 0%float
    [(0x1.3fd70a3d70a3dp+4, 1); (0x1.3fae147ae147bp+3, 1); (24.5, 1)]%float
  = 0x1.b3d70a3d70a3dp+5%float.
Proof. vm_compute. reflexivity. Qed.

(** The total of a cart is the [reduce] over its lines. *)
Lemma totalCart_reduce (cartItems : list IProduct) :
  totalCart cartItems
  = reduce_products Qplus Qmult 0 (List.map line_of cartItems).
Proof.
  unfold totalCart, reduce_products.
  generalize 0. induction cartItems as [|item rest IH]; intros acc;
    [reflexivity|apply IH].
Qed.

(** The lines of line items are their prices and quantities. *)
Lemma line_items_lines (cartItems : list IProduct) (lines : list (Q * Q)) :
  Forall2 (fun item pq => line_item item (fst pq) (snd pq)) cartItems lines ->
  List.map line_of cartItems = lines.
Proof.
  induction 1 as [|item [p q] rest lines' [Hp [Hq Hnz]] _ IH];
    [reflexivity|].
  simpl in *. unfold line_of at 1.
  now rewrite (price_or_0_number _ _ Hp), (quantity_or_1_line _ _ Hq Hnz), IH.
Qed.

(** One item more at the end adds its price × quantity to the total. *)
Lemma totalCart_snoc (cartItems : list IProduct) (item : IProduct) :
  totalCart (cartItems ++ [item]) = add_item (totalCart cartItems) item.
Proof. unfold totalCart. now rewrite fold_left_app. Qed.


(** C3: the total [calculateTotal] stores is the sum over the items, in
    their order, of price × quantity, the price and the quantity being
    those the page reads (for a line item with a numeric price and a
    quantity that is not zero, the fields themselves); one item more adds
    its price × quantity; the total of the empty sequence is 0. The
    equalities are between the very numbers computed: they use no law of
    arithmetic and hold for the doubles of the runtime. *)
Theorem calculateTotal_sum_of_products :
  (forall w : Page, total (calculateTotal [] w) = 0) /\
  (forall (cartItems : list IProduct) (w : Page),
     total (calculateTotal cartItems w)
     = sum_of_products Qplus Qmult 0 (List.map line_of cartItems)) /\
  (forall (cartItems : list IProduct) (lines : list (Q * Q)) (w : Page),
     Forall2 (fun item pq => line_item item (fst pq) (snd pq)) cartItems lines ->
     total (calculateTotal cartItems w) = sum_of_products Qplus Qmult 0 lines) /\
  (forall (cartItems : list IProduct) (item : IProduct) (p q : Q) (w : Page),
     line_item item p q ->
     total (calculateTotal (cartItems ++ [item]) w)
     = total (calculateTotal cartItems w) + p * q).
Proof.
  assert (Hsum : forall cartItems,
             totalCart cartItems
             = sum_of_products Qplus Qmult 0 (List.map line_of cartItems))
    by (intros; now rewrite totalCart_reduce, reduce_is_sum).
  split; [reflexivity|]. split; [intros; apply Hsum|]. split.
  - intros cartItems lines w Hlines. simpl.
    now rewrite Hsum, (line_items_lines _ _ Hlines).
  - intros cartItems item p q w [Hp [Hq Hnz]]. simpl.
    rewrite totalCart_snoc. unfold add_item.
    now rewrite (price_or_0_number _ _ Hp), (quantity_or_1_line _ _ Hq Hnz).
Qed.

(** The scenario of the specification: 5 × 2 + 3 × 1 = 13. *)
Example total_of_pair : totalCart Sample.pair = 13.
Proof. reflexivity. Qed.

Lemma calculateTotal_sum_of_products_pair :
  total (calculateTotal Sample.pair (initial ∅))
  = sum_of_products Qplus Qmult 0 [(5, 2); (3, 1)].
Proof.
  apply (proj1 (proj2 (proj2 calculateTotal_sum_of_products))).
  repeat constructor; simpl; discriminate.
Defined.

(** ** Coercion of a missing quantity and of a non-numeric price *)



(** The loose cart: a missing quantity counts as 1 and the textual price of
    the second item adds nothing. *)
Example total_of_loose : totalCart Sample.loose = 5.
Proof. reflexivity. Qed.

(** A stored quantity of 0 is falsy and counts as 1 as well. *)
Example total_of_zero_quantity :
  totalCart [Sample.item "A" 10 (Some 0) 5] = 10.
Proof. reflexivity. Qed.

(** ** What the handlers change *)

Lemma since_emit (es : list effect) (w : Page) : since w (emit es w) = es.
Proof. unfold since, emit. simpl. apply drop_app_length. Qed.

Lemma since_extends (w w' : Page) (es : list effect) :
  effects w' = effects w ++ es -> since w w' = es.
Proof. intros H. unfold since. rewrite H. apply drop_app_length. Qed.

Section Changes.

Variable JSON_parse : string -> option jsval.
Variable JSON_stringify : jsval -> string.

Lemma handleQuantityChange_cart (pid : string) (delta : Q) (w : Page) :
  cart (handleQuantityChange JSON_stringify pid delta w)
  = List.map (fun item => fst (changeItem pid delta item)) (cart w).
Proof. simpl. apply List.map_map. Qed.

Lemma handleQuantityChange_since (pid : string) (delta : Q) (w : Page) :
  since w (handleQuantityChange JSON_stringify pid delta w)
  = concat (List.map (fun item => snd (changeItem pid delta item)) (cart w)).
Proof.
  rewrite <- (List.map_map (changeItem pid delta) snd).
  apply since_extends. reflexivity.
Qed.

Lemma changeItem_refused (pid : string) (delta : Q) (item : IProduct) :
  productId item = Some pid ->
  stock item < quantity_or_1 item + delta ->
  changeItem pid delta item = (item, [stock_warning]).
Proof.
  intros Hpid Hgt. unfold changeItem.
  rewrite bool_decide_eq_true_2 by exact Hpid.
  apply gt_true in Hgt. now rewrite Hgt.
Qed.

Lemma changeItem_committed (pid : string) (delta : Q) (item : IProduct) :
  productId item = Some pid ->
  quantity_or_1 item + delta <= stock item ->
  changeItem pid delta item
  = (mkProduct (productId item) (name item) (imgUrl item) (price item)
               (Some (Qmax (quantity_or_1 item + delta) 1)) (stock item),
     []).
Proof.
  intros Hpid Hle. unfold changeItem.
  rewrite bool_decide_eq_true_2 by exact Hpid.
  apply gt_false in Hle. now rewrite Hle.
Qed.

Lemma changeItem_other (pid : string) (delta : Q) (item : IProduct) :
  productId item <> Some pid -> changeItem pid delta item = (item, []).
Proof.
  intros Hpid. unfold changeItem.
  now rewrite bool_decide_eq_false_2 by exact Hpid.
Qed.



End Changes.


Example total_after_refusal :
  total (handleQuantityChange (Sample.stringify "<cart>") "A" 1
           (Sample.page_of Sample.single)) = 10.
Proof. reflexivity. Qed.

(** ** Loading the cart *)

Section Loading.

Variable JSON_parse : string -> option jsval.

Lemma getItem_or_stored (st : gmap string string) (key dflt s : string) :
  st !! key = Some s -> s <> EmptyString -> getItem_or st key dflt = s.
Proof.
  intros H Hs. unfold getItem_or. rewrite H.
  destruct s; [contradiction|reflexivity].
Qed.

Lemma getItem_or_absent (st : gmap string string) (key dflt : string) :
  st !! key = None -> getItem_or st key dflt = dflt.
Proof. intros H. unfold getItem_or. now rewrite H. Qed.

(** A stored array becomes the cart, and its total is computed. *)
Lemma load_array (w : Page) (s : string) (items : list IProduct) :
  localStorage w !! "cart" = Some s -> s <> EmptyString ->
  JSON_parse s = Some (VArray items) ->
  load JSON_parse w
  = Returned (mkPage items (totalCart items) (localStorage w) (effects w)).
Proof.
  intros Hs Hne Hp. unfold load.
  now rewrite (getItem_or_stored _ _ _ _ Hs Hne), Hp.
Qed.

(** With no stored cart, the text of the empty array is parsed. *)
Lemma load_absent (w : Page) :
  localStorage w !! "cart" = None ->
  JSON_parse "[]" = Some (VArray []) ->
  load JSON_parse w = Returned (mkPage [] 0 (localStorage w) (effects w)).
Proof.
  intros Hs Hp. unfold load.
  now rewrite (getItem_or_absent _ _ _ Hs), Hp.
Qed.

(** X7: a stored value that is truthy and not an array (an object, a number,
    a text) has no [reduce]: the loader throws a [TypeError]. *)
Lemma load_not_array (w : Page) (s : string) (v : jsval) :
  localStorage w !! "cart" = Some s -> s <> EmptyString ->
  JSON_parse s = Some v -> truthy v = true ->
  (forall items, v <> VArray items) ->
  load JSON_parse w = Threw TypeError.
Proof.
  intros Hs Hne Hp Ht Hv. unfold load.
  rewrite (getItem_or_stored _ _ _ _ Hs Hne), Hp, Ht.
  destruct v; try reflexivity. now destruct (Hv items).
Qed.

(** C2 fails on the code: a stored text that [JSON.parse] rejects makes
    the loader throw; nothing catches the [SyntaxError]. *)
Theorem load_throws_on_malformed (w : Page) (s : string) :
  localStorage w !! "cart" = Some s -> s <> EmptyString ->
  JSON_parse s = None ->
  load JSON_parse w = Threw SyntaxError.
Proof.
  intros Hs Hne Hp. unfold load.
  now rewrite (getItem_or_stored _ _ _ _ Hs Hne), Hp.
Qed.

End Loading.

Lemma load_throws_on_malformed_brace :
  load (Sample.parse "<cart>" (VArray Sample.pair))
       (initial {[ "cart" := "{" ]})
  = Threw SyntaxError.
Proof.
  apply (load_throws_on_malformed _ _ "{").
  - apply lookup_singleton_eq.
  - discriminate.
  - reflexivity.
Defined.

(** ** Removing an item *)

Section Removing.

Variable JSON_stringify : jsval -> string.

Lemma filter_none_matching (pid : string) (c : list IProduct) :
  (forall item, In item c -> productId item <> Some pid) ->
  List.filter (fun product => negb (bool_decide (productId product = Some pid))) c
  = c.
Proof.
  induction c as [|x rest IH]; intros H; simpl; [reflexivity|].
  rewrite bool_decide_eq_false_2 by (apply H; now left). simpl.
  f_equal. apply IH. intros item Hin. apply H. now right.
Qed.

(** With the total in step with the cart, removing an identifier that no
    item has changes neither. *)
Lemma remove_absent_in_sync (pid : string) (w : Page) :
  total_in_sync w ->
  (forall item, In item (cart w) -> productId item <> Some pid) ->
  cart (handleRemoveFromCart JSON_stringify pid w) = cart w /\
  total (handleRemoveFromCart JSON_stringify pid w) = total w /\
  effects (handleRemoveFromCart JSON_stringify pid w) = effects w.
Proof.
  intros Hsync Habsent. unfold handleRemoveFromCart. simpl.
  rewrite (filter_none_matching _ _ Habsent).
  split; [reflexivity|]. split; [|reflexivity].
  symmetry. exact Hsync.
Qed.

Lemma filter_sublist (f : IProduct -> bool) (c : list IProduct) :
  sublist (List.filter f c) c.
Proof.
  induction c as [|x rest IH]; simpl; [constructor|].
  destruct (f x); [now apply sublist_skip|now apply sublist_cons].
Qed.

Lemma filter_shorter (f : IProduct -> bool) (c : list IProduct) (x : IProduct) :
  In x c -> f x = false ->
  (List.length (List.filter f c) < List.length c)%nat.
Proof.
  intros Hin Hx.
  induction c as [|y rest IH]; simpl in *; [contradiction|].
  destruct Hin as [->|Hin].
  - rewrite Hx. apply Nat.lt_succ_r, List.filter_length_le.
  - specialize (IH Hin). destruct (f y); simpl; lia.
Qed.

(** C8: removing an identifier yields the cart without the items that have
    it, the others in their order; the total is the one of what remains
    and the stored cart is its serialisation. *)
Theorem handleRemoveFromCart_present (pid : string) (w : Page) :
  (exists item, In item (cart w) /\ productId item = Some pid) ->
  let w' := handleRemoveFromCart JSON_stringify pid w in
  cart w' = List.filter (fun product =>
              negb (bool_decide (productId product = Some pid))) (cart w) /\
  (forall item,
     In item (cart w') <-> In item (cart w) /\ productId item <> Some pid) /\
  sublist (cart w') (cart w) /\
  (List.length (cart w') < List.length (cart w))%nat /\
  (forall before item after,
     cart w = before ++ item :: after ->
     productId item = Some pid ->
     (forall other, In other (before ++ after) -> productId other <> Some pid) ->
     cart w' = before ++ after) /\
  total w' = totalCart (cart w') /\
  localStorage w' = <["cart" := JSON_stringify (VArray (cart w'))]> (localStorage w).
Proof.
  intros [gone [Hin Hpid]] w'. subst w'. unfold handleRemoveFromCart. simpl.
  split; [reflexivity|].
  split; [|split; [|split; [|split; [|split; reflexivity]]]].
  - intros item. rewrite filter_In, negb_true_iff, bool_decide_eq_false.
    reflexivity.
  - apply filter_sublist.
  - apply (filter_shorter _ _ gone Hin).
    now rewrite bool_decide_eq_true_2 by exact Hpid.
  - intros before item after Hcart Hitem Hothers.
    rewrite Hcart, List.filter_app. simpl.
    rewrite bool_decide_eq_true_2 by exact Hitem. simpl.
    rewrite !filter_none_matching; [reflexivity| |];
      intros other Hother; apply Hothers, in_or_app; auto.
Qed.

End Removing.

(** The scenario of the specification: from the cart of A and B, removing A
    leaves B, and the total goes from 13 to 3. *)
Lemma handleRemoveFromCart_present_pair :
  cart (handleRemoveFromCart (Sample.stringify "<cart>") "A"
          (Sample.page_of Sample.pair))
  = [Sample.item "B" 3 (Some 1) 2] /\
  total (handleRemoveFromCart (Sample.stringify "<cart>") "A"
           (Sample.page_of Sample.pair)) = 3.
Proof.
  destruct (handleRemoveFromCart_present (Sample.stringify "<cart>") "A"
              (Sample.page_of Sample.pair))
    as [Hcart [_ [_ [_ [_ [Htotal _]]]]]].
  - exists (Sample.item "A" 5 (Some 2) 5). split; [now left|reflexivity].
  - split.
    + rewrite Hcart. reflexivity.
    + rewrite Htotal, Hcart. reflexivity.
Defined.


(** ** Submitting an order *)

Section Dispatch.

Variable JSON_stringify : jsval -> string.

(** C4: for an authenticated user with an identifier, when
    [createrOrder] resolves the cart is empty, the total is 0 and the
    stored cart is the serialisation of the empty array; when it rejects,
    the cart, the total and the storage are as before. *)
Theorem handleClick_clears_on_success
    (u : UserProfile) (userId : string) (w : Page) :
  userId_of u = Some userId ->
  (cart (handleClick JSON_stringify (Some u) true w) = [] /\
   total (handleClick JSON_stringify (Some u) true w) = 0 /\
   localStorage (handleClick JSON_stringify (Some u) true w)
   = <["cart" := JSON_stringify (VArray [])]> (localStorage w)) /\
  (cart (handleClick JSON_stringify (Some u) false w) = cart w /\
   total (handleClick JSON_stringify (Some u) false w) = total w /\
   localStorage (handleClick JSON_stringify (Some u) false w)
   = localStorage w).
Proof.
  intros Hid. unfold handleClick. rewrite Hid. simpl. repeat split.
Qed.

(** C9: with no user the handler only navigates to the login route; with
    a user whose identifier is missing it only shows the error dialog; in
    both cases nothing is submitted and the cart, the total and the
    storage are untouched. With both, the first thing it does is to call
    [createrOrder] with the (productId, quantity) pairs of the cart and
    the identifier; and whenever an order is submitted, both were there. *)
Theorem handleClick_requires_user
    (user : option UserProfile) (resolves : bool) (w : Page) :
  (user = None ->
     handleClick JSON_stringify user resolves w
     = emit [RouterPush "/api/auth/login"] w) /\
  (forall u, user = Some u -> userId_of u = None ->
     handleClick JSON_stringify user resolves w
     = emit [SwalFire error "Error"
               "No se pudo obtener el ID del usuario. Intente nuevamente."
               "Ok"] w) /\
  (forall u userId, user = Some u -> userId_of u = Some userId ->
     exists rest,
       since w (handleClick JSON_stringify user resolves w)
       = CreaterOrder
           (List.map (fun product =>
                        mkOrderItem (productId product) (quantity_or_1 product))
                     (cart w))
           userId :: rest) /\
  (forall orderItems userId,
     In (CreaterOrder orderItems userId)
        (since w (handleClick JSON_stringify user resolves w)) ->
     exists u, user = Some u /\ userId_of u = Some userId).
Proof.
  split; [|split; [|split]].
  - intros ->. reflexivity.
  - intros u -> Hid. unfold handleClick. now rewrite Hid.
  - intros u userId -> Hid. unfold handleClick. rewrite Hid.
    destruct resolves; eexists; apply since_extends; simpl;
      rewrite <- app_assoc; reflexivity.
  - intros orderItems userId. unfold handleClick.
    destruct user as [u|]; [|rewrite since_emit; simpl; intuition discriminate].
    destruct (userId_of u) as [uid|] eqn:Hid;
      [|rewrite since_emit; simpl; intuition discriminate].
    intros Hin. exists u. split; [reflexivity|]. f_equal.
    destruct resolves;
      match type of Hin with
      | In _ (since w ?w') =>
          rewrite (since_extends w w' (CreaterOrder (orderItems_of (cart w)) uid :: _))
            in Hin by (simpl; rewrite <- app_assoc; reflexivity)
      end;
      simpl in Hin; intuition congruence.
Qed.

(** The order submitted is [orderItems_of] the cart. *)
Lemma handleClick_order_payload
    (u : UserProfile) (userId : string) (resolves : bool) (w : Page) :
  userId_of u = Some userId ->
  In (CreaterOrder (orderItems_of (cart w)) userId)
     (since w (handleClick JSON_stringify (Some u) resolves w)).
Proof.
  intros Hid. unfold handleClick. rewrite Hid.
  destruct resolves;
    erewrite since_extends
      by (simpl; rewrite <- ?app_assoc; reflexivity);
    now left.
Qed.

End Dispatch.

(** ** Checking out *)

Ltac since_of_effects :=
  erewrite since_extends by (simpl; rewrite <- ?app_assoc; reflexivity).

Section Checkout.

Variable JSON_parse : string -> option jsval.
Variable JSON_stringify : jsval -> string.

Local Abbreviation checkout := (handleCheckout JSON_parse JSON_stringify).

(** Whatever the network answers, checking out leaves the cart and the
    total alone, and only adds to the effects. *)
Lemma handleCheckout_state (reply : fetched) (w : Page) :
  cart (handleCheckout JSON_parse JSON_stringify reply w) = cart w /\
  total (handleCheckout JSON_parse JSON_stringify reply w) = total w /\
  exists es,
    effects (handleCheckout JSON_parse JSON_stringify reply w)
    = effects w ++ es.
Proof.
  unfold handleCheckout.
  destruct (JSON_parse _) as [v|]; [|simpl; eauto].
  destruct (negb (truthy v) || length_is_zero v); [simpl; eauto|].
  destruct v; try (simpl; eauto).
  destruct reply as [|[] []]; simpl; rewrite <- ?app_assoc; eauto.
Qed.

(** C5: when the request fails (the network rejects it, or the response
    is not a success), the cart, the total and the whole storage are as
    before and the browser is not redirected. The storage changes only
    on a success response, and then only under the key [checkoutItems];
    the browser is redirected only on a success response, to the address
    it carries. *)
Theorem handleCheckout_failure_keeps_state (reply : fetched) (w : Page) :
  (request_failed reply ->
     cart (checkout reply w) = cart w /\
     total (checkout reply w) = total w /\
     localStorage (checkout reply w) = localStorage w /\
     forall u, ~ In (LocationHref u) (since w (checkout reply w))) /\
  (localStorage (checkout reply w) <> localStorage w ->
     exists b, reply = Response true b) /\
  (forall key, key <> "checkoutItems" ->
     localStorage (checkout reply w) !! key = localStorage w !! key) /\
  (forall u, In (LocationHref u) (since w (checkout reply w)) ->
     exists data, reply = Response true (Body data) /\ u = url data).
Proof.
  unfold handleCheckout.
  destruct (JSON_parse _) as [v|];
    [destruct (negb (truthy v) || length_is_zero v);
     [|destruct v; [| destruct reply as [|[] []] |]]|];
    (split; [|split; [|split]]).
  all: try (intros Hfail; first [ contradiction Hfail | clear Hfail ];
            repeat (split; [reflexivity|]);
            intros u; since_of_effects; simpl; intuition discriminate).
  all: try (intros Hchanged; simpl in Hchanged;
            first [ now contradiction Hchanged | now eauto ]).
  all: try (intros key Hkey; simpl;
            first [ reflexivity | apply lookup_insert_ne; congruence ]).
  all: intros u; since_of_effects; simpl; intros Hin;
       first [ now intuition discriminate | idtac ].
  exists data. split; [reflexivity|].
  destruct Hin as [Hin|[Hin|[]]]; congruence.
Qed.

(** C6: when the stored cart is absent or is the empty array, checking
    out logs that the cart is empty and does nothing else: no request is
    sent, and the cart, the total and the storage are as before. *)
Theorem handleCheckout_empty_aborts (reply : fetched) (w : Page) :
  JSON_parse "[]" = Some (VArray []) ->
  persisted_cart_empty JSON_parse (localStorage w) ->
  checkout reply w = emit [ConsoleError "El carrito está vacío."] w /\
  cart (checkout reply w) = cart w /\
  total (checkout reply w) = total w /\
  localStorage (checkout reply w) = localStorage w /\
  since w (checkout reply w) = [ConsoleError "El carrito está vacío."].
Proof.
  intros Hempty Hstored.
  assert (Hparse : JSON_parse (getItem_or (localStorage w) "cart" "[]")
                   = Some (VArray [])).
  { unfold getItem_or.
    destruct Hstored as [->|[s [-> Hs]]]; [exact Hempty|].
    destruct s; [exact Hempty|exact Hs]. }
  assert (Heq : checkout reply w
                = emit [ConsoleError "El carrito está vacío."] w)
    by (unfold handleCheckout; now rewrite Hparse).
  rewrite Heq. repeat split. apply since_emit.
Qed.

(** A stored array that is not empty is posted, each item with the five
    fields of the payload. *)
Lemma handleCheckout_posts (reply : fetched) (w : Page) (s : string)
      (item : IProduct) (items : list IProduct) :
  localStorage w !! "cart" = Some s -> s <> EmptyString ->
  JSON_parse s = Some (VArray (item :: items)) ->
  exists rest,
    since w (checkout reply w)
    = Fetch "/api/checkout_sessions" "POST" (checkoutItems_of (item :: items))
      :: rest.
Proof.
  intros Hs Hne Hp. unfold handleCheckout.
  rewrite (getItem_or_stored _ _ _ _ Hs Hne), Hp. simpl.
  destruct reply as [|[] []]; eexists; since_of_effects; reflexivity.
Qed.

(** ** The total follows the cart *)

Lemma run_total_in_sync (a : action) (w : Page) :
  total_in_sync w -> total_in_sync (run JSON_parse JSON_stringify a w).
Proof.
  unfold total_in_sync. intros Hsync.
  destruct a as [pid|pid delta|user resolves|reply]; simpl.
  - reflexivity.
  - reflexivity.
  - unfold handleClick.
    destruct user as [u|]; [|exact Hsync].
    destruct (userId_of u); [|exact Hsync].
    destruct resolves; [reflexivity|exact Hsync].
  - destruct (handleCheckout_state reply w)
      as [-> [-> _]].
    exact Hsync.
Qed.

Lemma reachable_total_in_sync (w : Page) :
  reachable JSON_parse JSON_stringify w -> total_in_sync w.
Proof.
  induction 1 as [st w Hload|a w _ IH].
  - unfold load in Hload.
    destruct (JSON_parse _) as [v|]; [|discriminate].
    destruct (truthy v); [|injection Hload as <-; reflexivity].
    destruct v; try discriminate.
    injection Hload as <-. reflexivity.
  - now apply run_total_in_sync.
Qed.

(** C7: in every state of the page, removing an identifier that no item
    of the cart has leaves the cart and the total as they were and shows
    nothing; the handler returns (it is a total function). *)
Theorem handleRemoveFromCart_absent (pid : string) (w : Page) :
  reachable JSON_parse JSON_stringify w ->
  (forall item, In item (cart w) -> productId item <> Some pid) ->
  cart (handleRemoveFromCart JSON_stringify pid w) = cart w /\
  total (handleRemoveFromCart JSON_stringify pid w) = total w /\
  effects (handleRemoveFromCart JSON_stringify pid w) = effects w.
Proof.
  intros Hreach. apply remove_absent_in_sync.
  now apply reachable_total_in_sync.
Qed.

End Checkout.

(** ** The handlers on the sample carts *)

Lemma handleClick_clears_on_success_pair :
  cart (handleClick (Sample.stringify "<cart>") (Some Sample.user) true
          (Sample.page_of Sample.pair)) = [] /\
  total (handleClick (Sample.stringify "<cart>") (Some Sample.user) true
           (Sample.page_of Sample.pair)) = 0 /\
  cart (handleClick (Sample.stringify "<cart>") (Some Sample.user) false
          (Sample.page_of Sample.pair)) = Sample.pair.
Proof.
  destruct (handleClick_clears_on_success (Sample.stringify "<cart>")
              Sample.user "auth0|1" (Sample.page_of Sample.pair) eq_refl)
    as [[Hcart [Htotal _]] [Hkept _]].
  split; [exact Hcart|]. split; [exact Htotal|exact Hkept].
Defined.

Lemma handleClick_requires_user_pair :
  exists rest,
    since (Sample.page_of Sample.pair)
          (handleClick (Sample.stringify "<cart>") (Some Sample.user) true
             (Sample.page_of Sample.pair))
    = CreaterOrder [mkOrderItem (Some "A") 2; mkOrderItem (Some "B") 1]
                   "auth0|1" :: rest.
Proof.
  destruct (handleClick_requires_user (Sample.stringify "<cart>")
              (Some Sample.user) true (Sample.page_of Sample.pair))
    as [_ [_ [Hsubmit _]]].
  exact (Hsubmit Sample.user "auth0|1" eq_refl eq_refl).
Defined.

Lemma handleCheckout_failure_keeps_state_pair :
  cart (handleCheckout (Sample.parse "<cart>" (VArray Sample.pair))
          (Sample.stringify "<cart>") NetworkError
          (Sample.page_of Sample.pair)) = Sample.pair /\
  localStorage (handleCheckout (Sample.parse "<cart>" (VArray Sample.pair))
                  (Sample.stringify "<cart>") (Response false NullBody)
                  (Sample.page_of Sample.pair))
  = {[ "cart" := "<cart>" ]}.
Proof.
  split.
  - apply (proj1 (handleCheckout_failure_keeps_state
                    (Sample.parse "<cart>" (VArray Sample.pair))
                    (Sample.stringify "<cart>") NetworkError
                    (Sample.page_of Sample.pair))).
    exact I.
  - apply (proj1 (handleCheckout_failure_keeps_state
                    (Sample.parse "<cart>" (VArray Sample.pair))
                    (Sample.stringify "<cart>") (Response false NullBody)
                    (Sample.page_of Sample.pair))).
    exact I.
Defined.

(** On the sample cart a success response stores the snapshot and redirects,
    after the request was posted. *)
Example checkout_success_pair :
  since (Sample.page_of Sample.pair)
        (handleCheckout (Sample.parse "<cart>" (VArray Sample.pair))
           (Sample.stringify "<cart>")
           (Response true (Body (mkData (Some "https://pay.example/s/1") None)))
           (Sample.page_of Sample.pair))
  = [Fetch "/api/checkout_sessions" "POST"
       [mkCheckoutItem (Some "A") "A" "/img.png" (JNum 5) 2;
        mkCheckoutItem (Some "B") "B" "/img.png" (JNum 3) 1];
     LocationHref (Some "https://pay.example/s/1")].
Proof. reflexivity. Qed.

Lemma handleCheckout_empty_aborts_fresh :
  handleCheckout (Sample.parse "<cart>" (VArray Sample.pair))
    (Sample.stringify "<cart>") NetworkError (initial ∅)
  = emit [ConsoleError "El carrito está vacío."] (initial ∅).
Proof.
  apply (handleCheckout_empty_aborts
           (Sample.parse "<cart>" (VArray Sample.pair))
           (Sample.stringify "<cart>") NetworkError (initial ∅)).
  - reflexivity.
  - left. apply lookup_empty.
Defined.

(** The sample page is one the loader produces from the stored text. *)
Example sample_page_reachable :
  reachable (Sample.parse "<cart>" (VArray Sample.pair))
            (Sample.stringify "<cart>") (Sample.page_of Sample.pair).
Proof.
  apply (reach_mount _ _ {[ "cart" := "<cart>" ]}).
  unfold Sample.page_of.
  apply (load_array _ (initial _) "<cart>");
    [apply lookup_singleton_eq|discriminate|reflexivity].
Qed.

Lemma handleRemoveFromCart_absent_pair :
  cart (handleRemoveFromCart (Sample.stringify "<cart>") "Z"
          (Sample.page_of Sample.pair))
  = Sample.pair /\
  total (handleRemoveFromCart (Sample.stringify "<cart>") "Z"
           (Sample.page_of Sample.pair)) = 13.
Proof.
  destruct (handleRemoveFromCart_absent
              (Sample.parse "<cart>" (VArray Sample.pair))
              (Sample.stringify "<cart>") "Z" (Sample.page_of Sample.pair))
    as [Hcart [Htotal _]].
  - exact sample_page_reachable.
  - intros item [<-|[<-|[]]]; discriminate.
  - split; [exact Hcart|exact Htotal].
Defined.

(** ** A missing quantity and a non-numeric price in what the handlers do *)

Section Coercions.

Variable JSON_parse : string -> option jsval.
Variable JSON_stringify : jsval -> string.


End Coercions.


(** The same cart as it is posted by the checkout. *)
Example checkout_payload_loose :
  since (Sample.page_of Sample.loose)
        (handleCheckout (Sample.parse "<cart>" (VArray Sample.loose))
           (Sample.stringify "<cart>") NetworkError
           (Sample.page_of Sample.loose))
  = [Fetch "/api/checkout_sessions" "POST"
       [mkCheckoutItem (Some "A") "A" "/img.png" (JNum 5) 1;
        mkCheckoutItem (Some "B") "B" "/img.png" (JStr "3") 2];
     ConsoleError "Error:"].
Proof. reflexivity. Qed.

(** * Further properties of the handlers *)

(** ** What a quantity change leaves alone *)

Lemma changeItem_fields (pid : string) (delta : Q) (item : IProduct) :
  let item' := fst (changeItem pid delta item) in
  productId item' = productId item /\ name item' = name item /\
  imgUrl item' = imgUrl item /\ price item' = price item /\
  stock item' = stock item.
Proof.
  unfold changeItem.
  destruct (bool_decide _); [destruct (gt _ _)|]; simpl; repeat split.
Qed.

Lemma changeItem_ids (pid : string) (delta : Q) (c : list IProduct) :
  ids_of (List.map (fun item => fst (changeItem pid delta item)) c) = ids_of c.
Proof.
  unfold ids_of. rewrite List.map_map. apply List.map_ext.
  intros item. apply (changeItem_fields pid delta item).
Qed.

Lemma changeItem_in_bounds (pid : string) (delta : Q) (item : IProduct) :
  in_bounds item -> in_bounds (fst (changeItem pid delta item)).
Proof.
  intros [q [Hq [Hlow Hhigh]]]. unfold changeItem.
  destruct (bool_decide _); [|exists q; auto].
  destruct (gt _ _) eqn:Hgt; [exists q; auto|].
  apply gt_false in Hgt. simpl.
  exists (Qmax (quantity_or_1 item + delta) 1). split; [reflexivity|]. split.
  - apply Q.le_max_r.
  - apply Q.max_lub; [exact Hgt|]. now apply Qle_trans with q.
Qed.

Section Frame.

Variable JSON_parse : string -> option jsval.
Variable JSON_stringify : jsval -> string.

(** X1: a quantity change keeps the number of items and their order, changes
    nothing but the quantity field of an item, and leaves every item with
    another identifier exactly as it was. *)
Theorem handleQuantityChange_frame (pid : string) (delta : Q) (w : Page) :
  let w' := handleQuantityChange JSON_stringify pid delta w in
  List.length (cart w') = List.length (cart w) /\
  ids_of (cart w') = ids_of (cart w) /\
  forall (i : nat) (item : IProduct),
    cart w !! i = Some item ->
    exists item',
      cart w' !! i = Some item' /\
      name item' = name item /\ imgUrl item' = imgUrl item /\
      price item' = price item /\ stock item' = stock item /\
      (productId item <> Some pid -> item' = item).
Proof.
  intros w'. subst w'. rewrite handleQuantityChange_cart.
  split; [apply List.length_map|]. split; [apply changeItem_ids|].
  intros i item Hi. exists (fst (changeItem pid delta item)).
  destruct (changeItem_fields pid delta item) as [_ [Hn [Hi' [Hp Hs]]]].
  split.
  - change (List.map ?f (cart w)) with (f <$> cart w).
    now rewrite list_lookup_fmap, Hi.
  - repeat (split; [assumption|]).
    intros Hother. now rewrite changeItem_other.
Qed.

Lemma filter_in_bounds (f : IProduct -> bool) (c : list IProduct) :
  Forall in_bounds c -> Forall in_bounds (List.filter f c).
Proof.
  rewrite !List.Forall_forall. intros H item Hin.
  apply filter_In in Hin. now apply H.
Qed.

Lemma filter_ids_NoDup (f : IProduct -> bool) (c : list IProduct) :
  NoDup (ids_of c) -> NoDup (ids_of (List.filter f c)).
Proof.
  unfold ids_of. induction c as [|x rest IH]; simpl; intros H; [constructor|].
  apply NoDup_cons in H as [Hx Hrest].
  destruct (f x); simpl; [|now apply IH].
  apply NoDup_cons. split; [|now apply IH].
  intros Hin. apply Hx.
  apply list_elem_of_In, in_map_iff in Hin as [y [Hy Hin]].
  apply list_elem_of_In, in_map_iff. exists y. split; [exact Hy|].
  now apply filter_In in Hin.
Qed.

(** X2: every handler keeps the bound of the data model: from a cart whose
    items all have 1 <= quantity <= stock, whatever the event, the cart is
    again one. *)
Theorem run_keeps_bounds (a : action) (w : Page) :
  Forall in_bounds (cart w) ->
  Forall in_bounds (cart (run JSON_parse JSON_stringify a w)).
Proof.
  intros Hb. destruct a as [pid|pid delta|user resolves|reply]; simpl run.
  - simpl. now apply filter_in_bounds.
  - rewrite handleQuantityChange_cart.
    apply List.Forall_forall. intros item' Hin.
    apply in_map_iff in Hin as [item [<- Hin]].
    apply changeItem_in_bounds.
    now apply (proj1 (List.Forall_forall _ _) Hb).
  - unfold handleClick. destruct user as [u|]; [|exact Hb].
    destruct (userId_of u); [|exact Hb].
    destruct resolves; [constructor|exact Hb].
  - now rewrite (proj1 (handleCheckout_state JSON_parse JSON_stringify reply w)).
Qed.

(** X3: every handler keeps the identifiers of the cart distinct. *)
Theorem run_keeps_unique_ids (a : action) (w : Page) :
  NoDup (ids_of (cart w)) ->
  NoDup (ids_of (cart (run JSON_parse JSON_stringify a w))).
Proof.
  intros Hu. destruct a as [pid|pid delta|user resolves|reply]; simpl run.
  - simpl. now apply filter_ids_NoDup.
  - now rewrite handleQuantityChange_cart, changeItem_ids.
  - unfold handleClick. destruct user as [u|]; [|exact Hu].
    destruct (userId_of u); [|exact Hu].
    destruct resolves; [constructor|exact Hu].
  - now rewrite (proj1 (handleCheckout_state JSON_parse JSON_stringify reply w)).
Qed.

End Frame.

(** ** The storage follows the cart *)

Section Mirror.

Variable JSON_parse : string -> option jsval.
Variable JSON_stringify : jsval -> string.

Lemma handleCheckout_other_keys (reply : fetched) (w : Page) (key : string) :
  key <> "checkoutItems" ->
  localStorage (handleCheckout JSON_parse JSON_stringify reply w) !! key
  = localStorage w !! key.
Proof.
  intros Hkey. unfold handleCheckout.
  destruct (JSON_parse _) as [v|]; [|reflexivity].
  destruct (negb (truthy v) || length_is_zero v); [reflexivity|].
  destruct v; try reflexivity.
  destruct reply as [|[] []]; simpl; try reflexivity;
    apply lookup_insert_ne; congruence.
Qed.

(** X4: removing an item, changing a quantity and a successful order leave
    the total and the stored cart following the in-memory cart, whatever
    the state before; and no event breaks this once it holds. *)
Theorem run_keeps_mirror (w : Page) :
  (forall pid, mirrors JSON_stringify (handleRemoveFromCart JSON_stringify pid w)) /\
  (forall pid delta,
     mirrors JSON_stringify (handleQuantityChange JSON_stringify pid delta w)) /\
  (forall u userId, userId_of u = Some userId ->
     mirrors JSON_stringify (handleClick JSON_stringify (Some u) true w)) /\
  (forall a, mirrors JSON_stringify w ->
     mirrors JSON_stringify (run JSON_parse JSON_stringify a w)).
Proof.
  assert (Hremove : forall pid,
             mirrors JSON_stringify (handleRemoveFromCart JSON_stringify pid w))
    by (intros pid; split; [reflexivity|apply lookup_insert_eq]).
  assert (Hchange : forall pid delta,
             mirrors JSON_stringify
               (handleQuantityChange JSON_stringify pid delta w))
    by (intros pid delta; split; [reflexivity|apply lookup_insert_eq]).
  split; [exact Hremove|]. split; [exact Hchange|]. split.
  - intros u userId Hid. unfold handleClick. rewrite Hid.
    split; [reflexivity|apply lookup_insert_eq].
  - intros a [Htotal Hstored].
    destruct a as [pid|pid delta|user resolves|reply]; simpl run.
    + apply Hremove.
    + apply Hchange.
    + unfold handleClick. destruct user as [u|]; [|now split].
      destruct (userId_of u); [|now split].
      destruct resolves; [|now split].
      split; [reflexivity|apply lookup_insert_eq].
    + destruct (handleCheckout_state JSON_parse JSON_stringify reply w)
        as [Hcart [Htot _]].
      unfold mirrors. rewrite Hcart, Htot.
      split; [exact Htotal|].
      rewrite handleCheckout_other_keys by discriminate. exact Hstored.
Qed.

(** X5: when the storage follows the cart and the runtime reads back what
    it wrote for this cart, mounting the page again over that storage gives
    the same cart and the same total. *)
Theorem reload_restores_cart (w : Page) :
  mirrors JSON_stringify w ->
  JSON_stringify (VArray (cart w)) <> EmptyString ->
  JSON_parse (JSON_stringify (VArray (cart w))) = Some (VArray (cart w)) ->
  load JSON_parse (initial (localStorage w))
  = Returned (mkPage (cart w) (total w) (localStorage w) []).
Proof.
  intros [Htotal Hstored] Hne Hback.
  rewrite Htotal.
  apply (load_array JSON_parse (initial (localStorage w)) _ _ Hstored Hne Hback).
Qed.

(** X6: the loader only reads: when it returns, the storage and the effects
    are as before, and either the page is untouched or the total is the one
    computed from the loaded cart. *)
Theorem load_reads_only (w w' : Page) :
  load JSON_parse w = Returned w' ->
  localStorage w' = localStorage w /\
  effects w' = effects w /\
  (w' = w \/ total w' = totalCart (cart w')).
Proof.
  unfold load. intros Hload.
  destruct (JSON_parse _) as [v|]; [|discriminate].
  destruct (truthy v).
  - destruct v; try discriminate.
    injection Hload as <-. simpl. auto.
  - injection Hload as <-. auto.
Qed.

(** X8: a cart key that is missing, or holds the empty text, is read as the
    text of the empty array: the cart is empty and the total 0. *)
Theorem load_missing_or_blank (w : Page) :
  localStorage w !! "cart" = None \/
  localStorage w !! "cart" = Some EmptyString ->
  JSON_parse "[]" = Some (VArray []) ->
  load JSON_parse w = Returned (mkPage [] 0 (localStorage w) (effects w)).
Proof.
  intros Hstored Hempty. unfold load, getItem_or.
  destruct Hstored as [-> | ->]; now rewrite Hempty.
Qed.

(** X9: a stored cart that the runtime cannot parse, or that is truthy with
    a length other than 0 and is not an array, ends in the [catch] of the
    checkout: one line on the console, no request, nothing else changed. *)
Theorem handleCheckout_logs_on_bad_cart (reply : fetched) (w : Page) (s : string) :
  localStorage w !! "cart" = Some s -> s <> EmptyString ->
  JSON_parse s = None \/
  (exists v, JSON_parse s = Some v /\ truthy v = true /\
             length_is_zero v = false /\ forall items, v <> VArray items) ->
  handleCheckout JSON_parse JSON_stringify reply w
  = emit [ConsoleError "Error:"] w.
Proof.
  intros Hs Hne Hbad. unfold handleCheckout.
  rewrite (getItem_or_stored _ _ _ _ Hs Hne).
  destruct Hbad as [-> | [v [-> [Ht [Hl Hv]]]]]; [reflexivity|].
  rewrite Ht, Hl. simpl.
  destruct v; try reflexivity. now destruct (Hv items).
Qed.

(** X10: when the storage follows a cart that is not empty and the runtime
    reads back what it wrote for it, the checkout posts the items of the
    in-memory cart, and on a success response whose body is read the
    snapshot stored under [checkoutItems] is the text stored under
    [cart]. *)
Theorem handleCheckout_posts_cart (reply : fetched) (w : Page) :
  mirrors JSON_stringify w ->
  cart w <> [] ->
  JSON_stringify (VArray (cart w)) <> EmptyString ->
  JSON_parse (JSON_stringify (VArray (cart w))) = Some (VArray (cart w)) ->
  (exists rest,
     since w (handleCheckout JSON_parse JSON_stringify reply w)
     = Fetch "/api/checkout_sessions" "POST" (checkoutItems_of (cart w))
       :: rest) /\
  (forall b, reply = Response true b -> b <> Unparsable ->
     localStorage (handleCheckout JSON_parse JSON_stringify reply w)
       !! "checkoutItems"
     = localStorage w !! "cart").
Proof.
  intros [_ Hstored] Hcart Hne Hback.
  destruct (cart w) as [|item items] eqn:Hc; [contradiction|].
  split.
  - apply (handleCheckout_posts JSON_parse JSON_stringify reply w _ item items
             Hstored Hne Hback).
  - intros b -> Hb. unfold handleCheckout.
    rewrite (getItem_or_stored _ _ _ _ Hstored Hne), Hback. simpl.
    destruct b; [contradiction| |]; simpl;
      now rewrite lookup_insert_eq, Hstored.
Qed.

(** X11: the checkout reads the stored cart and never the in-memory one:
    two pages over the same storage do the same things and end with the
    same storage. *)
Theorem handleCheckout_reads_storage (reply : fetched) (w1 w2 : Page) :
  localStorage w1 = localStorage w2 ->
  since w1 (handleCheckout JSON_parse JSON_stringify reply w1)
  = since w2 (handleCheckout JSON_parse JSON_stringify reply w2) /\
  localStorage (handleCheckout JSON_parse JSON_stringify reply w1)
  = localStorage (handleCheckout JSON_parse JSON_stringify reply w2).
Proof.
  intros Hst. unfold handleCheckout. rewrite Hst.
  destruct (JSON_parse _) as [v|];
    [destruct (negb (truthy v) || length_is_zero v);
     [|destruct v; [|destruct reply as [|[] []]|]]|];
    (split; [do 2 since_of_effects; reflexivity|simpl; now rewrite ?Hst]).
Qed.

End Mirror.

(** ** How the handlers compose *)

Lemma filter_twice (f : IProduct -> bool) (c : list IProduct) :
  List.filter f (List.filter f c) = List.filter f c.
Proof.
  induction c as [|x rest IH]; simpl; [reflexivity|].
  destruct (f x) eqn:E; simpl; [rewrite E; f_equal|]; exact IH.
Qed.

Lemma filter_swap (f g : IProduct -> bool) (c : list IProduct) :
  List.filter f (List.filter g c) = List.filter g (List.filter f c).
Proof.
  induction c as [|x rest IH]; simpl; [reflexivity|].
  destruct (f x) eqn:Ef, (g x) eqn:Eg; simpl; rewrite ?Ef, ?Eg, IH; reflexivity.
Qed.

Lemma filter_changed (pid : string) (delta : Q) (c : list IProduct) :
  List.filter (fun product => negb (bool_decide (productId product = Some pid)))
              (List.map (fun item => fst (changeItem pid delta item)) c)
  = List.filter (fun product => negb (bool_decide (productId product = Some pid))) c.
Proof.
  induction c as [|x rest IH]; simpl; [reflexivity|].
  rewrite (proj1 (changeItem_fields pid delta x)), IH.
  destruct (decide (productId x = Some pid)) as [Hx|Hx].
  - now rewrite bool_decide_eq_true_2 by exact Hx.
  - rewrite bool_decide_eq_false_2 by exact Hx. simpl.
    now rewrite changeItem_other.
Qed.

Lemma quantity_or_1_not_zero (item : IProduct) : ~ quantity_or_1 item == 0.
Proof.
  unfold quantity_or_1. destruct (quantity item) as [q|]; [|discriminate].
  destruct (Qeq_bool q 0) eqn:E; [discriminate|].
  now apply Qeq_bool_neq.
Qed.

Section Composition.

Variable JSON_parse : string -> option jsval.
Variable JSON_stringify : jsval -> string.

Local Abbreviation remove := (handleRemoveFromCart JSON_stringify).
Local Abbreviation change := (handleQuantityChange JSON_stringify).

Lemma handleRemoveFromCart_cart (pid : string) (w : Page) :
  cart (remove pid w)
  = List.filter (fun product => negb (bool_decide (productId product = Some pid)))
                (cart w).
Proof. reflexivity. Qed.

(** X12: removing the same identifier twice is removing it once: the second
    click finds nothing to remove and rewrites the same storage. *)
Theorem remove_idempotent (pid : string) (w : Page) :
  remove pid (remove pid w) = remove pid w.
Proof.
  unfold handleRemoveFromCart, updateLocalStorage, calculateTotal,
         setItem, setTotal, setCart. simpl.
  rewrite filter_twice. f_equal. apply insert_insert_eq.
Qed.

(** X13: removing two identifiers gives the same page in either order. *)
Theorem remove_commutes (pid1 pid2 : string) (w : Page) :
  remove pid1 (remove pid2 w) = remove pid2 (remove pid1 w).
Proof.
  unfold handleRemoveFromCart, updateLocalStorage, calculateTotal,
         setItem, setTotal, setCart. simpl.
  rewrite (filter_swap _ _ (cart w)). f_equal.
  now rewrite !insert_insert_eq.
Qed.

(** X14: a quantity change of an identifier followed by its removal leaves
    the cart, the total and the storage that the removal alone leaves. *)
Theorem remove_after_change (pid : string) (delta : Q) (w : Page) :
  cart (remove pid (change pid delta w)) = cart (remove pid w) /\
  total (remove pid (change pid delta w)) = total (remove pid w) /\
  localStorage (remove pid (change pid delta w)) = localStorage (remove pid w).
Proof.
  assert (Hcart : cart (remove pid (change pid delta w)) = cart (remove pid w)).
  { rewrite !handleRemoveFromCart_cart, handleQuantityChange_cart.
    apply filter_changed. }
  split; [exact Hcart|]. split.
  - change (totalCart (cart (remove pid (change pid delta w)))
            = totalCart (cart (remove pid w))).
    now rewrite Hcart.
  - change (<["cart" := JSON_stringify
                          (VArray (cart (remove pid (change pid delta w))))]>
              (<["cart" := JSON_stringify
                             (VArray (cart (change pid delta w)))]>
                 (localStorage w))
            = <["cart" := JSON_stringify (VArray (cart (remove pid w)))]>
                (localStorage w)).
    now rewrite insert_insert_eq, Hcart.
Qed.

Lemma handleCheckout_on_empty (reply : fetched) (w : Page) :
  JSON_parse (getItem_or (localStorage w) "cart" "[]") = Some (VArray []) ->
  handleCheckout JSON_parse JSON_stringify reply w
  = emit [ConsoleError "El carrito está vacío."] w.
Proof. intros H. unfold handleCheckout. now rewrite H. Qed.

(** X15: after a successful order the checkout finds the stored cart empty:
    it logs so and sends no request, provided the runtime reads the text
    it wrote for the empty array (and the text [[]]) as the empty array. *)
Theorem checkout_after_order_aborts
    (u : UserProfile) (userId : string) (reply : fetched) (w : Page) :
  userId_of u = Some userId ->
  JSON_parse "[]" = Some (VArray []) ->
  JSON_parse (JSON_stringify (VArray [])) = Some (VArray []) ->
  let ordered := handleClick JSON_stringify (Some u) true w in
  handleCheckout JSON_parse JSON_stringify reply ordered
  = emit [ConsoleError "El carrito está vacío."] ordered /\
  forall input method items,
    ~ In (Fetch input method items)
         (since ordered (handleCheckout JSON_parse JSON_stringify reply ordered)).
Proof.
  intros Hid Hempty Hback ordered.
  assert (Hstored : localStorage ordered !! "cart"
                    = Some (JSON_stringify (VArray []))).
  { subst ordered. unfold handleClick. rewrite Hid. apply lookup_insert_eq. }
  assert (Heq : handleCheckout JSON_parse JSON_stringify reply ordered
                = emit [ConsoleError "El carrito está vacío."] ordered).
  { apply handleCheckout_on_empty. unfold getItem_or. rewrite Hstored.
    destruct (JSON_stringify (VArray [])); [exact Hempty|exact Hback]. }
  split; [exact Heq|].
  intros input method items. rewrite Heq, since_emit.
  intros [Hin|[]]. discriminate.
Qed.

(** X16: the order and the checkout payload have one entry per item of the
    cart, in its order and under its identifier, and no entry has quantity
    0. *)
Theorem payload_quantities_not_zero (c : list IProduct) :
  List.map order_productId (orderItems_of c) = ids_of c /\
  List.map co_productId (checkoutItems_of c) = ids_of c /\
  Forall (fun entry => ~ order_quantity entry == 0) (orderItems_of c) /\
  Forall (fun entry => ~ co_quantity entry == 0) (checkoutItems_of c).
Proof.
  unfold orderItems_of, checkoutItems_of, ids_of.
  rewrite !List.map_map. simpl.
  split; [reflexivity|]. split; [reflexivity|].
  split; apply List.Forall_forall; intros entry Hin;
    apply in_map_iff in Hin as [item [<- _]]; apply quantity_or_1_not_zero.
Qed.

End Composition.

(** ** Quantities and the buttons that change them *)

Lemma Qmax_left (x : Q) : 1 <= x -> Qmax x 1 = x.
Proof.
  intros H. unfold Qmax, GenericMinMax.gmax.
  destruct (x ?= 1) eqn:E; try reflexivity.
  apply Qlt_alt in E. apply Qlt_not_le in E. contradiction.
Qed.

Lemma quantity_or_1_from_1 (item : IProduct) (q : Q) :
  quantity item = Some q -> 1 <= q -> quantity_or_1 item = q.
Proof.
  intros Hq Hlow. apply (quantity_or_1_line _ _ Hq).
  intros Hz. rewrite Hz in Hlow. now apply Hlow.
Qed.

(** An accepted change that stays at 1 or above commits the sum itself. *)
Lemma changeItem_exact (pid : string) (delta : Q) (item : IProduct) :
  productId item = Some pid ->
  1 <= quantity_or_1 item + delta ->
  quantity_or_1 item + delta <= stock item ->
  changeItem pid delta item
  = (mkProduct (productId item) (name item) (imgUrl item) (price item)
               (Some (quantity_or_1 item + delta)) (stock item), []).
Proof.
  intros Hpid Hlow Hhigh.
  rewrite (changeItem_committed pid delta item Hpid Hhigh).
  now rewrite (Qmax_left _ Hlow).
Qed.

Section Quantities.

Variable JSON_stringify : jsval -> string.


(** X21: on a cart within the bounds of the data model, lowering a quantity
    (or leaving it) never raises the stock warning, nor any other effect. *)
Theorem decrease_never_warns (pid : string) (delta : Q) (w : Page) :
  delta <= 0 ->
  Forall in_bounds (cart w) ->
  since w (handleQuantityChange JSON_stringify pid delta w) = [].
Proof.
  intros Hdelta Hb. rewrite handleQuantityChange_since.
  induction Hb as [|item rest [q [Hq [Hlow Hhigh]]] _ IH]; [reflexivity|].
  simpl. rewrite IH, app_nil_r.
  unfold changeItem. destruct (bool_decide _); [|reflexivity].
  rewrite (quantity_or_1_from_1 _ _ Hq Hlow).
  assert (Hle : q + delta <= stock item) by lra.
  apply gt_false in Hle. now rewrite Hle.
Qed.


(** X22: the plus button on an item within bounds: with room in the stock
    the quantity becomes exactly one more; without, the item stays as it
    was and the stock warning is shown. *)
Theorem clickPlus_adds_one
    (w : Page) (i : nat) (product : IProduct) (pid : string) (q : Q) :
  cart w !! i = Some product ->
  clickable_id product = Some pid ->
  quantity product = Some q -> 1 <= q -> q <= stock product ->
  exists item',
    cart (clickPlus JSON_stringify product w) !! i = Some item' /\
    (q + 1 <= stock product -> quantity item' = Some (q + 1)) /\
    (stock product < q + 1 ->
       item' = product /\
       In stock_warning (since w (clickPlus JSON_stringify product w))).
Proof.
  intros Hi Hid Hq Hlow Hhigh.
  pose proof (quantity_or_1_from_1 _ _ Hq Hlow) as Hq1.
  assert (Hpid : productId product = Some pid).
  { unfold clickable_id in Hid.
    destruct (productId product) as [[|c s]|]; congruence. }
  unfold clickPlus. rewrite Hid.
  exists (fst (changeItem pid 1 product)). split; [|split].
  - rewrite handleQuantityChange_cart.
    change (List.map ?f ?l) with (f <$> l).
    now rewrite list_lookup_fmap, Hi.
  - intros Hroom.
    rewrite changeItem_exact; rewrite ?Hq1; [reflexivity|exact Hpid|lra|exact Hroom].
  - intros Hfull.
    assert (Hrefused : changeItem pid 1 product = (product, [stock_warning]))
      by (apply changeItem_refused; [exact Hpid|now rewrite Hq1]).
    rewrite Hrefused. split; [reflexivity|].
    rewrite handleQuantityChange_since. apply in_concat.
    exists [stock_warning]. split; [|now left].
    apply in_map_iff. exists product. rewrite Hrefused. split; [reflexivity|].
    apply list_elem_of_In. eapply list_elem_of_lookup_2. exact Hi.
Qed.

End Quantities.

(** ** The checkout button after mounting *)

Section Mounted.

Variable JSON_parse : string -> option jsval.
Variable JSON_stringify : jsval -> string.

(** X23: on the page as the loader leaves it, the checkout button is enabled
    exactly when a click on it sends the request, and the request carries
    the items of the cart shown. *)
Theorem mounted_checkout_button
    (st : gmap string string) (w : Page) (reply : fetched) :
  load JSON_parse (initial st) = Returned w ->
  (checkout_disabled w = true ->
     forall input method items,
       ~ In (Fetch input method items)
            (since w (clickCheckout JSON_parse JSON_stringify reply w))) /\
  (checkout_disabled w = false ->
     exists rest,
       since w (clickCheckout JSON_parse JSON_stringify reply w)
       = Fetch "/api/checkout_sessions" "POST" (checkoutItems_of (cart w))
         :: rest).
Proof.
  intros Hload. unfold clickCheckout. split.
  - intros Hdis input method items. rewrite Hdis.
    unfold since. rewrite drop_all. intros [].
  - intros Hen. rewrite Hen.
    unfold load in Hload. simpl localStorage in Hload.
    destruct (JSON_parse (getItem_or st "cart" "[]")) as [v|] eqn:Hparse;
      [|discriminate].
    destruct (truthy v) eqn:Ht.
    + destruct v as [|items|]; try discriminate.
      injection Hload as <-. simpl in Hen.
      destruct items as [|item items]; [discriminate|].
      unfold handleCheckout. simpl localStorage. rewrite Hparse. simpl.
      destruct reply as [|[] []]; eexists; since_of_effects; reflexivity.
    + injection Hload as <-. discriminate.
Qed.

End Mounted.

(** ** The further properties on the sample carts *)

(** Comparisons of given numbers. *)
Ltac closed_Q := vm_compute; first [reflexivity | discriminate].

Lemma pair_in_bounds : Forall in_bounds Sample.pair.
Proof.
  constructor; [exists 2|constructor; [exists 1|constructor]];
    (split; [reflexivity|simpl; split; lra]).
Qed.

Lemma pair_unique_ids : NoDup (ids_of Sample.pair).
Proof.
  apply NoDup_cons. split.
  - intros Hin. apply list_elem_of_In in Hin as [Hin|[]]. discriminate.
  - apply NoDup_singleton.
Qed.

Lemma sample_load :
  load (Sample.parse "<cart>" (VArray Sample.pair))
       (initial {[ "cart" := "<cart>" ]})
  = Returned (Sample.page_of Sample.pair).
Proof.
  unfold Sample.page_of.
  apply (load_array _ (initial _) "<cart>");
    [apply lookup_singleton_eq|discriminate|reflexivity].
Qed.

Lemma mirrored_pair_mirrors :
  mirrors (Sample.stringify "<cart>") (Sample.mirrored Sample.pair).
Proof. split; [reflexivity|apply lookup_singleton_eq]. Qed.

Lemma run_keeps_bounds_pair :
  Forall in_bounds
    (cart (run (Sample.parse "<cart>" (VArray Sample.pair))
               (Sample.stringify "<cart>") (SetQuantity "A" 1)
               (Sample.page_of Sample.pair))).
Proof.
  apply run_keeps_bounds. exact pair_in_bounds.
Defined.

Lemma run_keeps_unique_ids_pair :
  NoDup
    (ids_of
       (cart (run (Sample.parse "<cart>" (VArray Sample.pair))
                  (Sample.stringify "<cart>") (Remove "A")
                  (Sample.page_of Sample.pair)))).
Proof.
  apply run_keeps_unique_ids. exact pair_unique_ids.
Defined.

Lemma reload_restores_cart_pair :
  load (Sample.parse "<cart>" (VArray Sample.pair))
       (initial (localStorage (Sample.mirrored Sample.pair)))
  = Returned (mkPage Sample.pair 13
                     (localStorage (Sample.mirrored Sample.pair)) []).
Proof.
  apply (reload_restores_cart (Sample.parse "<cart>" (VArray Sample.pair))
           (Sample.stringify "<cart>") (Sample.mirrored Sample.pair)).
  - exact mirrored_pair_mirrors.
  - discriminate.
  - reflexivity.
Defined.

Lemma load_reads_only_pair :
  localStorage (Sample.page_of Sample.pair) = {[ "cart" := "<cart>" ]} /\
  effects (Sample.page_of Sample.pair) = [] /\
  (Sample.page_of Sample.pair = initial {[ "cart" := "<cart>" ]} \/
   total (Sample.page_of Sample.pair) = totalCart (cart (Sample.page_of Sample.pair))).
Proof.
  exact (load_reads_only (Sample.parse "<cart>" (VArray Sample.pair))
           (initial {[ "cart" := "<cart>" ]}) (Sample.page_of Sample.pair)
           sample_load).
Defined.

Lemma load_not_array_object :
  load (Sample.parse "<cart>" (VObject []))
       (initial {[ "cart" := "<cart>" ]})
  = Threw TypeError.
Proof.
  apply (load_not_array _ _ "<cart>" (VObject [])).
  - apply lookup_singleton_eq.
  - discriminate.
  - reflexivity.
  - reflexivity.
  - discriminate.
Defined.

Lemma load_missing_or_blank_fresh :
  load (Sample.parse "<cart>" (VArray Sample.pair)) (initial ∅)
  = Returned (mkPage [] 0 ∅ []).
Proof.
  apply (load_missing_or_blank _ (initial ∅)).
  - left. apply lookup_empty.
  - reflexivity.
Defined.

Lemma handleCheckout_logs_on_bad_cart_brace :
  handleCheckout (Sample.parse "<cart>" (VArray Sample.pair))
    (Sample.stringify "<cart>") NetworkError (initial {[ "cart" := "{" ]})
  = emit [ConsoleError "Error:"] (initial {[ "cart" := "{" ]}).
Proof.
  apply (handleCheckout_logs_on_bad_cart _ _ _ _ "{").
  - apply lookup_singleton_eq.
  - discriminate.
  - left. reflexivity.
Defined.

Lemma handleCheckout_posts_cart_pair :
  exists rest,
    since (Sample.mirrored Sample.pair)
          (handleCheckout (Sample.parse "<cart>" (VArray Sample.pair))
             (Sample.stringify "<cart>") NetworkError
             (Sample.mirrored Sample.pair))
    = Fetch "/api/checkout_sessions" "POST" (checkoutItems_of Sample.pair)
      :: rest.
Proof.
  apply (handleCheckout_posts_cart
           (Sample.parse "<cart>" (VArray Sample.pair))
           (Sample.stringify "<cart>") NetworkError
           (Sample.mirrored Sample.pair)).
  - exact mirrored_pair_mirrors.
  - discriminate.
  - discriminate.
  - reflexivity.
Defined.

Lemma handleCheckout_reads_storage_pair :
  since (Sample.mirrored Sample.pair)
        (handleCheckout (Sample.parse "<cart>" (VArray Sample.pair))
           (Sample.stringify "<cart>") NetworkError
           (Sample.mirrored Sample.pair))
  = since (initial (localStorage (Sample.mirrored Sample.pair)))
          (handleCheckout (Sample.parse "<cart>" (VArray Sample.pair))
             (Sample.stringify "<cart>") NetworkError
             (initial (localStorage (Sample.mirrored Sample.pair)))).
Proof.
  apply (handleCheckout_reads_storage
           (Sample.parse "<cart>" (VArray Sample.pair))
           (Sample.stringify "<cart>") NetworkError
           (Sample.mirrored Sample.pair)
           (initial (localStorage (Sample.mirrored Sample.pair)))).
  reflexivity.
Defined.

Lemma checkout_after_order_aborts_pair :
  handleCheckout (Sample.parse "<cart>" (VArray Sample.pair))
    (Sample.stringify "<cart>") NetworkError
    (handleClick (Sample.stringify "<cart>") (Some Sample.user) true
       (Sample.page_of Sample.pair))
  = emit [ConsoleError "El carrito está vacío."]
      (handleClick (Sample.stringify "<cart>") (Some Sample.user) true
         (Sample.page_of Sample.pair)).
Proof.
  apply (checkout_after_order_aborts
           (Sample.parse "<cart>" (VArray Sample.pair))
           (Sample.stringify "<cart>") Sample.user "auth0|1" NetworkError
           (Sample.page_of Sample.pair)); reflexivity.
Defined.


Lemma decrease_never_warns_pair :
  since (Sample.page_of Sample.pair)
        (handleQuantityChange (Sample.stringify "<cart>") "A" (-1)
           (Sample.page_of Sample.pair))
  = [].
Proof.
  apply decrease_never_warns; [closed_Q|exact pair_in_bounds].
Defined.


Lemma clickPlus_adds_one_pair :
  exists item',
    cart (clickPlus (Sample.stringify "<cart>")
            (Sample.item "B" 3 (Some 1) 2) (Sample.page_of Sample.pair))
      !! 1%nat = Some item' /\
    (1 + 1 <= stock (Sample.item "B" 3 (Some 1) 2) ->
       quantity item' = Some (1 + 1)) /\
    (stock (Sample.item "B" 3 (Some 1) 2) < 1 + 1 ->
       item' = Sample.item "B" 3 (Some 1) 2 /\
       In stock_warning
          (since (Sample.page_of Sample.pair)
                 (clickPlus (Sample.stringify "<cart>")
                    (Sample.item "B" 3 (Some 1) 2)
                    (Sample.page_of Sample.pair)))).
Proof.
  apply (clickPlus_adds_one (Sample.stringify "<cart>")
           (Sample.page_of Sample.pair) 1%nat
           (Sample.item "B" 3 (Some 1) 2) "B" 1);
    try reflexivity; closed_Q.
Defined.

Lemma mounted_checkout_button_pair :
  exists rest,
    since (Sample.page_of Sample.pair)
          (clickCheckout (Sample.parse "<cart>" (VArray Sample.pair))
             (Sample.stringify "<cart>") NetworkError
             (Sample.page_of Sample.pair))
    = Fetch "/api/checkout_sessions" "POST" (checkoutItems_of Sample.pair)
      :: rest.
Proof.
  apply (proj2 (mounted_checkout_button
                  (Sample.parse "<cart>" (VArray Sample.pair))
                  (Sample.stringify "<cart>")
                  {[ "cart" := "<cart>" ]} (Sample.page_of Sample.pair)
                  NetworkError sample_load)).
  reflexivity.
Defined.
